(** * Jordan Air Quality Monitoring System: a shallow embedding of [app.py]

    The dashboard is a Streamlit script over the Earth Engine client.  The
    script is embedded as follows.

    - [Py]: the Python builtins the script relies on (integer formatting in
      f-strings, [str.split], [str.startswith], insertion-ordered [dict]s,
      list indexing, exceptions).
    - [EE]: the deferred expression objects that the Earth Engine client
      builds ([ImageCollection], [Image], [Geometry], ...) and the remote
      service that evaluates them, taken as a parameter.
    - [App]: the script itself, top to bottom.

    Python [str] values are modelled as [string]s of UTF-8 bytes, Python
    [int]s as [Z], Python [float]s as binary64 [float]s. *)

From Stdlib Require Import String Ascii ZArith List Lia Bool DecimalString.
From Stdlib Require Import DecimalPos DecimalZ.
From Stdlib Require Import Floats.PrimFloat.
Import ListNotations.

Set Warnings "-inexact-float".

Open Scope string_scope.
Open Scope Z_scope.

(* ================================================================== *)
(** * Python builtins *)
(* ================================================================== *)

Module Py.

(** The exceptions the script can run into. *)
Inductive exn : Type :=
| KeyError (key : string)
| IndexError
| EEException (msg : string).

(** A computation that either raises or returns. *)
Definition result (A : Type) : Type := (exn + A)%type.

(** Numbers as they appear in the script and in JSON answers. *)
Inductive number : Type :=
| PyInt (z : Z)
| PyFloat (f : float).

(** A JSON scalar as [getInfo()] decodes it: [None] or a number. *)
Inductive value : Type :=
| PyNone
| PyNum (n : number).

(** [float(n)] for an [int]; exact as long as [|n| <= 2^53]. *)
Fixpoint float_of_pos (p : positive) : float :=
  match p with
  | xH => 1%float
  | xO q => (2 * float_of_pos q)%float
  | xI q => (2 * float_of_pos q + 1)%float
  end.

Definition float_of_Z (z : Z) : float :=
  match z with
  | Z0 => 0%float
  | Zpos p => float_of_pos p
  | Zneg p => (- float_of_pos p)%float
  end.

(** [a <= b] on numbers.  Mixed comparisons go through [float_of_Z]. *)
Definition num_le (a b : number) : bool :=
  match a, b with
  | PyInt x, PyInt y => x <=? y
  | PyInt x, PyFloat g => PrimFloat.leb (float_of_Z x) g
  | PyFloat f, PyInt y => PrimFloat.leb f (float_of_Z y)
  | PyFloat f, PyFloat g => PrimFloat.leb f g
  end.

(** ** Integer formatting *)

(** [str(n)], which is also what [f"{n}"] produces for an [int]. *)
Definition str (n : Z) : string := NilZero.string_of_int (Z.to_int n).

Fixpoint zeros (k : nat) : string :=
  match k with
  | O => EmptyString
  | S k' => String "0" (zeros k')
  end.

(** Left-pad with ["0"] up to [width] characters. *)
Definition zfill (width : nat) (s : string) : string :=
  zeros (width - String.length s) ++ s.

(** [f"{n:0<width>d}"]: sign-aware zero padding. *)
Definition format_0d (width : nat) (n : Z) : string :=
  if n <? 0 then String "-" (zfill (width - 1) (str (Z.abs n)))
  else zfill width (str n).

(** ** Strings *)

(** [s.startswith(p)]. *)
Definition startswith (s p : string) : bool := String.prefix p s.

(** [s.split(sep)] for a one-character separator: every occurrence of
    [sep] ends a field, so the result is never empty. *)
Fixpoint split (sep : ascii) (s : string) : list string :=
  match s with
  | EmptyString => [EmptyString]
  | String c rest =>
      if Ascii.eqb c sep then EmptyString :: split sep rest
      else match split sep rest with
           | [] => [String c EmptyString]
           | field :: fields => String c field :: fields
           end
  end.

(** [l[i]], raising [IndexError] out of range. *)
Definition index {A : Type} (l : list A) (i : nat) : result A :=
  match nth_error l i with
  | Some x => inr x
  | None => inl IndexError
  end.

(** ** Dictionaries

    A [dict] keeps its keys in insertion order; assigning to a key that is
    already present keeps its position. *)

Definition dict (V : Type) : Type := list (string * V).

Fixpoint setitem {V : Type} (d : dict V) (k : string) (v : V) : dict V :=
  match d with
  | [] => [(k, v)]
  | (k', v') :: rest =>
      if String.eqb k' k then (k', v) :: rest
      else (k', v') :: setitem rest k v
  end.

(** A dictionary display [{k1: v1, ..., kn: vn}]. *)
Definition display {V : Type} (entries : list (string * V)) : dict V :=
  fold_left (fun d kv => setitem d (fst kv) (snd kv)) entries [].

(** The raw lookup. *)
Fixpoint lookup {V : Type} (d : dict V) (k : string) : option V :=
  match d with
  | [] => None
  | (k', v) :: rest => if String.eqb k' k then Some v else lookup rest k
  end.

(** [d[k]]. *)
Definition getitem {V : Type} (d : dict V) (k : string) : result V :=
  match lookup d k with
  | Some v => inr v
  | None => inl (KeyError k)
  end.

(** [d.get(k)] on a dictionary of JSON scalars: [None] when [k] is absent. *)
Definition get (d : dict value) (k : string) : value :=
  match lookup d k with
  | Some v => v
  | None => PyNone
  end.

(** [d.items()], [d.keys()], [d.values()]. *)
Definition items {V : Type} (d : dict V) : list (string * V) := d.
Definition keys {V : Type} (d : dict V) : list string := map fst d.
Definition values {V : Type} (d : dict V) : list V := map snd d.

End Py.

Import Py.

(* ================================================================== *)
(** * The Earth Engine client *)
(* ================================================================== *)

(** The client library computes nothing locally: every call below builds an
    expression object, and only [getInfo()] sends one to the server. *)

Module EE.

(** [ee.Filter.eq(name, value)]. *)
Inductive Filter : Type :=
| Filter_eq (name : string) (value : string).

Inductive FeatureCollection : Type :=
| FeatureCollection_of (id : string)
| filter (fc : FeatureCollection) (f : Filter).

Inductive ImageCollection : Type :=
| ImageCollection_of (id : string)
| filterDate (c : ImageCollection) (start end_ : string)
| select (c : ImageCollection) (band : string).

Inductive Image : Type :=
| mean (c : ImageCollection)
| clip (img : Image) (fc : FeatureCollection).

(** [ee.Geometry.Point(coords)]. *)
Inductive Geometry : Type :=
| Point (coords : list float).

Inductive Reducer : Type :=
| Reducer_mean.

(** [image.reduceRegion(reducer=, geometry=, scale=, maxPixels=)]. *)
Record reduceRegion : Type := {
  image : Image;
  reducer : Reducer;
  geometry : Geometry;
  scale : number;
  maxPixels : number
}.

(** The collection an image was composited from. *)
Fixpoint composite_of (img : Image) : ImageCollection :=
  match img with
  | mean c => c
  | clip i _ => composite_of i
  end.

(** The remote service.  [getInfo] answers a reduction with a dictionary
    from band names to values, or raises; [size] is the number of archive
    images a collection expression denotes.  The same request gets the same
    answer. *)
Record Service : Type := {
  getInfo : reduceRegion -> result (dict value);
  size : ImageCollection -> nat
}.

(** The service's behaviour on an empty composite: the mean of no image is a
    raster without data, and reducing it is not an error but an answer that
    carries no value for any band. *)
Definition empty_composite_has_no_value (svc : Service) : Prop :=
  forall call : reduceRegion,
    size svc (composite_of (image call)) = 0%nat ->
    exists d, getInfo svc call = inr d /\ forall band, get d band = PyNone.

End EE.

Import EE.

(* ================================================================== *)
(** * The script *)
(* ================================================================== *)

Module App.

(** ** Widgets *)

Definition jordan_center : list float := [31.2%float; 36.5%float].

(** The options of the pollutant select box. *)
Definition pollutant_options : list string :=
  [ "Nitrogen Dioxide (NO2)";
    "Sulfur Dioxide (SO2)";
    "Carbon Monoxide (CO)";
    "Aerosol Index (Dust/Smoke)" ].

(** The bounds of the year slider. *)
Definition year_min : Z := 2019.
Definition year_max : Z := 2025.

(** [list(range(1, 13))]. *)
Definition month_options : list Z := map Z.of_nat (seq 1 12).

(** What the sidebar and the button hand to one run of the script. *)
Record Widgets : Type := {
  pollutant : string;
  year : Z;
  month : Z;
  generate_clicked : bool
}.

(** ** Pollutant configurations *)

Record Config : Type := {
  cfg_collection : string;
  cfg_band : string;
  cfg_min : number;
  cfg_max : number;
  cfg_palette : list string;
  cfg_unit : string
}.

Definition gas_configs : dict Config :=
  display
    [ ("Nitrogen Dioxide (NO2)",
       {| cfg_collection := "COPERNICUS/S5P/OFFL/L3_NO2";
          cfg_band := "tropospheric_NO2_column_number_density";
          cfg_min := PyInt 0;
          cfg_max := PyFloat 0.0002;
          cfg_palette :=
            ["black"; "blue"; "purple"; "cyan"; "green"; "yellow"; "red"];
          cfg_unit := "mol/m²" |});
      ("Sulfur Dioxide (SO2)",
       {| cfg_collection := "COPERNICUS/S5P/OFFL/L3_SO2";
          cfg_band := "SO2_column_number_density";
          cfg_min := PyInt 0;
          cfg_max := PyFloat 0.0005;
          cfg_palette := ["blue"; "green"; "yellow"; "orange"; "red"];
          cfg_unit := "mol/m²" |});
      ("Carbon Monoxide (CO)",
       {| cfg_collection := "COPERNICUS/S5P/OFFL/L3_CO";
          cfg_band := "CO_column_number_density";
          cfg_min := PyInt 0;
          cfg_max := PyFloat 0.05;
          cfg_palette :=
            ["black"; "blue"; "purple"; "cyan"; "green"; "yellow"; "red"];
          cfg_unit := "mol/m²" |});
      ("Aerosol Index (Dust/Smoke)",
       {| cfg_collection := "COPERNICUS/S5P/OFFL/L3_AER_AI";
          cfg_band := "absorbing_aerosol_index";
          cfg_min := PyInt (-1);
          cfg_max := PyInt 2;
          cfg_palette :=
            ["black"; "blue"; "purple"; "cyan"; "green"; "yellow"; "red"];
          cfg_unit := "Index" |}) ].

(** ** Date handling *)

Definition start_date (year month : Z) : string :=
  str year ++ "-" ++ format_0d 2 month ++ "-01".

Definition end_date (year month : Z) : string :=
  if month <? 12 then str year ++ "-" ++ format_0d 2 (month + 1) ++ "-01"
  else str (year + 1) ++ "-01-01".

(** ** Jordan boundary and satellite data *)

Definition jordan_boundary : FeatureCollection :=
  filter (FeatureCollection_of "USDOS/LSIB_SIMPLE/2017")
         (Filter_eq "country_na" "Jordan").

Definition image (config : Config) (start_date end_date : string) : Image :=
  clip
    (mean
       (select
          (filterDate (ImageCollection_of (cfg_collection config))
                      start_date end_date)
          (cfg_band config)))
    jordan_boundary.

(** ** Map visualisation *)

Record VisParams : Type := {
  vis_min : number;
  vis_max : number;
  vis_palette : list string
}.

Definition vis_params (config : Config) : VisParams :=
  {| vis_min := cfg_min config;
     vis_max := cfg_max config;
     vis_palette := cfg_palette config |}.

(** ** City-based statistics *)

Definition locations : dict (list float) :=
  display
    [ ("Irbid", [32.55%float; 35.85%float]);
      ("Amman", [31.95%float; 35.92%float]);
      ("Zarqa", [32.06%float; 36.10%float]);
      ("Aqaba", [29.53%float; 35.00%float]);
      ("Mafraq", [32.34%float; 36.24%float]) ].

(** One entry of [results]. *)
Record Row : Type := {
  City : string;
  Pollutant : string;
  Value : value;
  Unit : string;
  Date : string
}.

(** The data frame and the name of the file offered for download. *)
Record StatReport : Type := {
  df : list Row;
  file_name : string
}.

(** The request sent for a city at [coords]. *)
Definition reduce_at (img : Image) (coords : list float) : reduceRegion :=
  {| EE.image := img;
     reducer := Reducer_mean;
     geometry := Point coords;
     scale := PyInt 7000;
     maxPixels := PyFloat 1e9 |}.

(** [pollutant.split(" ")[0]]. *)
Definition safe_name (pollutant : string) : result string :=
  index (split " " pollutant) 0.

(** [f"Jordan_AirQuality_{safe_name}_{year}_{month}.csv"]. *)
Definition csv_file_name (safe_name : string) (year month : Z) : string :=
  "Jordan_AirQuality_" ++ safe_name ++ "_" ++ str year ++ "_" ++ str month
  ++ ".csv".

(** ** Scientific insights: the text shown by [st.info], if any. *)

Definition insight (pollutant : string) : option string :=
  if startswith pollutant "Nitrogen" then
    Some "🚗 **NO₂** mainly originates from traffic and fossil fuel combustion."
  else if startswith pollutant "Sulfur" then
    Some "🏭 **SO₂** indicates industrial emissions and power generation."
  else if startswith pollutant "Carbon" then
    Some "🔥 **CO** is linked to incomplete combustion in urban areas."
  else if startswith pollutant "Aerosol" then
    Some "🏜️ **Aerosol Index** highlights dust storms and smoke transport."
  else None.

(** ** Running the script

    A run threads the log of the requests sent to the server so far and
    stops at the first exception. *)

Definition M (A : Type) : Type :=
  list reduceRegion -> list reduceRegion * result A.

Definition ret {A : Type} (a : A) : M A := fun log => (log, inr a).

Definition bind {A B : Type} (c : M A) (k : A -> M B) : M B :=
  fun log =>
    match c log with
    | (log', inr a) => k a log'
    | (log', inl e) => (log', inl e)
    end.

Definition lift {A : Type} (r : result A) : M A := fun log => (log, r).

Notation "x <- c ;; k" := (bind c (fun x => k))
  (at level 61, c at next level, right associativity).

Section Script.

Variable svc : Service.

(** [call.getInfo()]: one round trip. *)
Definition fetch (call : reduceRegion) : M (dict value) :=
  fun log => ((log ++ [call])%list, getInfo svc call).

(** The body of [for city, coords in locations.items()], with [results]
    threaded through. *)
Fixpoint for_each_city (pollutant : string) (config : Config)
    (year month : Z) (img : Image)
    (cities : list (string * list float)) (results : list Row)
  : M (list Row) :=
  match cities with
  | [] => ret results
  | (city, coords) :: rest =>
      val <- fetch (reduce_at img coords) ;;
      for_each_city pollutant config year month img rest
        (results ++
           [ {| City := city;
                Pollutant := pollutant;
                Value := get val (cfg_band config);
                Unit := cfg_unit config;
                Date := str year ++ "-" ++ format_0d 2 month |} ])%list
  end.

(** The block under [if st.button("Generate Statistical Report")]. *)
Definition generate_report (pollutant : string) (config : Config)
    (year month : Z) (img : Image) : M StatReport :=
  results <- for_each_city pollutant config year month img
               (items locations) [] ;;
  name <- lift (safe_name pollutant) ;;
  ret {| df := results; file_name := csv_file_name name year month |}.

(** What one run of the authenticated branch puts on the page. *)
Record Page : Type := {
  page_start_date : string;
  page_end_date : string;
  page_metric : string;
  page_layer : Image;
  page_vis : VisParams;
  page_report : option StatReport;
  page_insight : option string
}.

Definition dashboard (w : Widgets) : M Page :=
  config <- lift (getitem gas_configs (pollutant w)) ;;
  let start := start_date (year w) (month w) in
  let stop := end_date (year w) (month w) in
  let img := image config start stop in
  metric <- lift (index (split " " (pollutant w)) 0) ;;
  report <- (if generate_clicked w then
               r <- generate_report (pollutant w) config (year w) (month w)
                      img ;;
               ret (Some r)
             else ret None) ;;
  ret {| page_start_date := start;
         page_end_date := stop;
         page_metric := metric;
         page_layer := img;
         page_vis := vis_params config;
         page_report := report;
         page_insight := insight (pollutant w) |}.

(** The whole script: without credentials only the warning is shown. *)
Definition main (authenticated : bool) (w : Widgets) : M (option Page) :=
  if authenticated then p <- dashboard w ;; ret (Some p) else ret None.

(** A session is a sequence of reruns.  Streamlit runs the script from the
    top on every interaction; [previous] is the page left by the last run. *)
Definition rerun (previous : option Page) (w : Widgets)
  : list reduceRegion * result (option Page) :=
  main true w [].

End Script.

End App.

Import App.

(* ================================================================== *)
(** * Reference definitions *)
(* ================================================================== *)

(** ** Calendar dates, written out independently of the formatting code *)

Module Calendar.

(** The character of a decimal digit [0..9]. *)
Definition digit (d : Z) : ascii := ascii_of_nat (48 + Z.to_nat d).

Definition two_digits (n : Z) : string :=
  String (digit (n / 10 mod 10)) (String (digit (n mod 10)) EmptyString).

Definition four_digits (n : Z) : string :=
  String (digit (n / 1000 mod 10))
    (String (digit (n / 100 mod 10)) (two_digits n)).

(** The ISO form [YYYY-MM-DD]. *)
Definition iso (y m d : Z) : string :=
  four_digits y ++ "-" ++ two_digits m ++ "-" ++ two_digits d.

(** The month that follows [(y, m)] in the calendar. *)
Definition next_month (y m : Z) : Z * Z :=
  if m =? 12 then (y + 1, 1) else (y, m + 1).

(** Months elapsed since month 0 of year 0: the chronological order. *)
Definition month_index (ym : Z * Z) : Z := 12 * fst ym + snd ym.

(** [lo, lo+1, ..., hi]. *)
Definition zrange (lo hi : Z) : list Z :=
  map (fun i => lo + Z.of_nat i) (seq 0 (Z.to_nat (hi - lo + 1))).

(** Everything the date handling has to get right for one [(y, m)]. *)
Definition window_ok (y m : Z) : bool :=
  String.eqb (start_date y m) (iso y m 1)
  && String.eqb (end_date y m)
       (iso (fst (next_month y m)) (snd (next_month y m)) 1)
  && String.ltb (start_date y m) (end_date y m).

End Calendar.

(** ** The rows a report is expected to hold *)

Definition city_names : list string :=
  ["Irbid"; "Amman"; "Zarqa"; "Aqaba"; "Mafraq"].

Definition expected_row (pollutant : string) (config : Config)
    (year month : Z) (city : string) (answer : dict value) : Row :=
  {| City := city;
     Pollutant := pollutant;
     Value := get answer (cfg_band config);
     Unit := cfg_unit config;
     Date := str year ++ "-" ++ format_0d 2 month |}.

(** The requests a report is expected to send, one per city. *)
Definition expected_calls (img : Image) : list reduceRegion :=
  map (fun cc : string * list float =>
         {| EE.image := img;
            reducer := Reducer_mean;
            geometry := Point (snd cc);
            scale := PyInt 7000;
            maxPixels := PyFloat 1e9 |})
      (items locations).

(** The raster a run of the dashboard queries. *)
Definition queried_image (w : Widgets) (config : Config) : Image :=
  image config (start_date (year w) (month w))
               (end_date (year w) (month w)).

(** The prefix categories of the insight panel. *)
Definition insight_categories : list string :=
  ["Nitrogen"; "Sulfur"; "Carbon"; "Aerosol"].

Definition matching_categories (pollutant : string) : list string :=
  List.filter (startswith pollutant) insight_categories.

(** A session: the page that is left after a sequence of interactions. *)
Fixpoint session (svc : Service) (previous : option Page)
    (interactions : list Widgets) : option Page :=
  match interactions with
  | [] => previous
  | w :: rest =>
      match rerun svc previous w with
      | (_, inr page) => session svc page rest
      | (_, inl _) => session svc None rest
      end
  end.

(** ** A small concrete service

    An archive holding a single NO2 scene, evaluated the way the
    expressions read. *)

Module Toy.

Record Scene : Type := {
  scene_collection : string;
  scene_date : string;
  scene_band : string;
  scene_value : value
}.

Definition archive : list Scene :=
  [ {| scene_collection := "COPERNICUS/S5P/OFFL/L3_NO2";
       scene_date := "2024-06-15";
       scene_band := "tropospheric_NO2_column_number_density";
       scene_value := PyNum (PyFloat 0.00005) |} ].

Fixpoint scenes (c : ImageCollection) : list Scene :=
  match c with
  | ImageCollection_of id =>
      List.filter (fun s => String.eqb (scene_collection s) id) archive
  | filterDate c' start stop =>
      List.filter
        (fun s => String.leb start (scene_date s)
                  && String.ltb (scene_date s) stop)
        (scenes c')
  | select c' band =>
      List.filter (fun s => String.eqb (scene_band s) band) (scenes c')
  end.

Definition answer (call : reduceRegion) : result (dict value) :=
  match scenes (composite_of (EE.image call)) with
  | [] => inr []
  | s :: _ => inr [(scene_band s, scene_value s)]
  end.

Definition service : Service :=
  {| getInfo := answer; size := fun c => length (scenes c) |}.

(** A service that refuses every request. *)
Definition offline : Service :=
  {| getInfo := fun _ => inl (EEException "unavailable");
     size := fun _ => 0%nat |}.

Definition no2_june_2024 : Widgets :=
  {| pollutant := "Nitrogen Dioxide (NO2)";
     year := 2024;
     month := 6;
     generate_clicked := true |}.

Definition co_january_2019 : Widgets :=
  {| pollutant := "Carbon Monoxide (CO)";
     year := 2019;
     month := 1;
     generate_clicked := true |}.

End Toy.

(* ================================================================== *)
(** * Authentication and the whole script *)
(* ================================================================== *)

Module Auth.








End Auth.

(* ================================================================== *)
(** * Character classes *)
(* ================================================================== *)

Module Text.

(** Every character of [s] satisfies [p]. *)
Fixpoint all_chars (p : ascii -> bool) (s : string) : bool :=
  match s with
  | EmptyString => true
  | String c rest => p c && all_chars p rest
  end.

(** [c] does not occur in [s]. *)
Definition without (c : ascii) (s : string) : bool :=
  all_chars (fun x => negb (Ascii.eqb x c)) s.

(** ["0"] .. ["9"]. *)
Definition is_digit (c : ascii) : bool :=
  ((48 <=? nat_of_ascii c) && (nat_of_ascii c <=? 57))%nat.

End Text.

(* ================================================================== *)
(** * Sample inputs *)
(* ================================================================== *)

Module Sample.

Definition config : Config :=
  {| cfg_collection := "COPERNICUS/S5P/OFFL/L3_NO2";
     cfg_band := "tropospheric_NO2_column_number_density";
     cfg_min := PyInt 0;
     cfg_max := PyInt 1;
     cfg_palette := ["black"; "red"];
     cfg_unit := "mol/m²" |}.

Definition img : Image := image config "2024-06-01" "2024-07-01".

(** A service that answers like [Toy.service] but times out on the request
    for Zarqa. *)
Definition flaky : Service :=
  {| getInfo := fun call =>
       match geometry call with
       | Point (x :: _) =>
           if PrimFloat.eqb x 32.06
           then inl (EEException "timeout")
           else Toy.answer call
       | Point [] => Toy.answer call
       end;
     size := size Toy.service |}.



Definition ozone : Widgets :=
  {| pollutant := "Ozone (O3)";
     year := 2023;
     month := 3;
     generate_clicked := true |}.

End Sample.

(* ================================================================== *)
(** * Facts about the Python builtins *)
(* ================================================================== *)

Section PyFacts.

Context {V : Type}.

(** A key that is not in the dictionary is not found. *)
Lemma lookup_absent (d : dict V) (k : string) :
  ~ In k (keys d) -> lookup d k = None.
Proof.
  induction d as [|[k' v] d IH]; simpl; intros Hk; [reflexivity|].
  destruct (String.eqb_spec k' k) as [->|_].
  - exfalso. apply Hk. now left.
  - apply IH. intros Hin. apply Hk. now right.
Qed.

(** Subscripting with a missing key raises [KeyError] on that key. *)
Lemma getitem_absent (d : dict V) (k : string) :
  ~ In k (keys d) -> getitem d k = inl (KeyError k).
Proof.
  intros Hk. unfold getitem. now rewrite lookup_absent.
Qed.

End PyFacts.

(** [split] always returns at least one field. *)
Lemma split_cons (sep : ascii) (s : string) :
  exists field fields, split sep s = field :: fields.
Proof.
  destruct s as [|c rest]; simpl.
  - now exists EmptyString, [].
  - destruct (Ascii.eqb c sep).
    + now exists EmptyString, (split sep rest).
    + destruct (split sep rest) as [|f fs].
      * now exists (String c EmptyString), [].
      * now exists (String c f), fs.
Qed.

(** So taking the first field never raises. *)
Lemma safe_name_returns (p : string) : exists name, safe_name p = inr name.
Proof.
  unfold safe_name. destruct (split_cons " " p) as (f & fs & ->).
  now exists f.
Qed.

(* ================================================================== *)
(** * Date handling *)
(* ================================================================== *)

Lemma in_zrange (lo hi z : Z) :
  lo <= z <= hi -> In z (Calendar.zrange lo hi).
Proof.
  intros Hz. unfold Calendar.zrange. apply in_map_iff.
  exists (Z.to_nat (z - lo)). split; [lia|].
  apply in_seq. lia.
Qed.

(** The month slider offers exactly the months 1..12. *)
Lemma month_options_range (m : Z) : In m month_options <-> 1 <= m <= 12.
Proof.
  unfold month_options. rewrite in_map_iff. split.
  - intros (i & <- & Hi). apply in_seq in Hi. lia.
  - intros Hm. exists (Z.to_nat m). split; [lia|]. apply in_seq. lia.
Qed.

(** The date handling is right for every month of the years 2019..2099,
    which cover the slider, by exhaustive evaluation. *)
Lemma window_ok_this_century (y m : Z) :
  2019 <= y <= 2099 -> 1 <= m <= 12 -> Calendar.window_ok y m = true.
Proof.
  intros Hy Hm.
  assert (Hall :
    forallb (fun y' => forallb (Calendar.window_ok y') (Calendar.zrange 1 12))
            (Calendar.zrange 2019 2099) = true) by (vm_compute; reflexivity).
  rewrite forallb_forall in Hall.
  specialize (Hall y (in_zrange 2019 2099 y Hy)).
  rewrite forallb_forall in Hall.
  apply Hall, in_zrange, Hm.
Qed.

(** The month after [(y, m)] is the next one in chronological order. *)
Lemma next_month_is_next (y m : Z) :
  1 <= m <= 12 ->
  Calendar.month_index (Calendar.next_month y m)
    = Calendar.month_index (y, m) + 1
  /\ 1 <= snd (Calendar.next_month y m) <= 12.
Proof.
  intros Hm. unfold Calendar.next_month, Calendar.month_index.
  destruct (Z.eqb_spec m 12); cbn [fst snd]; lia.
Qed.

(** C1. For every year of the slider (2019..2025) and every month 1..12,
    [start_date] is ["YYYY-MM-01"] with a zero-padded month, [end_date] is
    the first day of the chronologically next month (December rolls over to
    January of the following year), and [start_date < end_date]. *)
Theorem date_window_correct (year month : Z) :
  year_min <= year <= year_max ->
  1 <= month <= 12 ->
  start_date year month = Calendar.iso year month 1
  /\ end_date year month
     = Calendar.iso (fst (Calendar.next_month year month))
                    (snd (Calendar.next_month year month)) 1
  /\ Calendar.month_index (Calendar.next_month year month)
     = Calendar.month_index (year, month) + 1
  /\ 1 <= snd (Calendar.next_month year month) <= 12
  /\ String.ltb (start_date year month) (end_date year month) = true.
Proof.
  unfold year_min, year_max. intros Hy Hm.
  pose proof (window_ok_this_century year month ltac:(lia) Hm) as Hok.
  unfold Calendar.window_ok in Hok.
  apply andb_true_iff in Hok. destruct Hok as [Hok Hlt].
  apply andb_true_iff in Hok. destruct Hok as [Hs He].
  apply String.eqb_eq in Hs. apply String.eqb_eq in He.
  destruct (next_month_is_next year month Hm) as [Hidx Hrange].
  split; [exact Hs|]. split; [exact He|]. split; [exact Hidx|].
  split; [exact Hrange|exact Hlt].
Qed.

Lemma date_window_correct_december_2024 :
  (year_min <= 2024 <= year_max /\ 1 <= 12 <= 12)
  /\ start_date 2024 12 = "2024-12-01"
  /\ end_date 2024 12 = "2025-01-01"
  /\ String.ltb "2024-12-01" "2025-01-01" = true.
Proof.
  assert (Hy : year_min <= 2024 <= year_max)
    by (unfold year_min, year_max; lia).
  assert (Hm : 1 <= 12 <= 12) by lia.
  destruct (date_window_correct 2024 12 Hy Hm) as (Hs & He & _ & _ & Hlt).
  split; [exact (conj Hy Hm)|].
  split; [rewrite Hs; reflexivity|].
  split; [rewrite He; reflexivity|].
  exact Hlt.
Defined.

(* ================================================================== *)
(** * The pollutant registry *)
(* ================================================================== *)

(** The registry is keyed by exactly the options of the select box, in the
    same order. *)
Lemma gas_configs_keys : keys gas_configs = pollutant_options.
Proof. reflexivity. Qed.

(** C2. Subscripting [gas_configs] with each of the four pollutant names
    returns exactly that pollutant's collection, band, display range,
    palette and unit; subscripting it with any other string raises
    [KeyError] instead of falling back to a default. *)
Theorem registry_lookup_exact :
  getitem gas_configs "Nitrogen Dioxide (NO2)"
  = inr {| cfg_collection := "COPERNICUS/S5P/OFFL/L3_NO2";
           cfg_band := "tropospheric_NO2_column_number_density";
           cfg_min := PyInt 0;
           cfg_max := PyFloat 0.0002;
           cfg_palette :=
             ["black"; "blue"; "purple"; "cyan"; "green"; "yellow"; "red"];
           cfg_unit := "mol/m²" |}
  /\ getitem gas_configs "Sulfur Dioxide (SO2)"
     = inr {| cfg_collection := "COPERNICUS/S5P/OFFL/L3_SO2";
              cfg_band := "SO2_column_number_density";
              cfg_min := PyInt 0;
              cfg_max := PyFloat 0.0005;
              cfg_palette := ["blue"; "green"; "yellow"; "orange"; "red"];
              cfg_unit := "mol/m²" |}
  /\ getitem gas_configs "Carbon Monoxide (CO)"
     = inr {| cfg_collection := "COPERNICUS/S5P/OFFL/L3_CO";
              cfg_band := "CO_column_number_density";
              cfg_min := PyInt 0;
              cfg_max := PyFloat 0.05;
              cfg_palette :=
                ["black"; "blue"; "purple"; "cyan"; "green"; "yellow"; "red"];
              cfg_unit := "mol/m²" |}
  /\ getitem gas_configs "Aerosol Index (Dust/Smoke)"
     = inr {| cfg_collection := "COPERNICUS/S5P/OFFL/L3_AER_AI";
              cfg_band := "absorbing_aerosol_index";
              cfg_min := PyInt (-1);
              cfg_max := PyInt 2;
              cfg_palette :=
                ["black"; "blue"; "purple"; "cyan"; "green"; "yellow"; "red"];
              cfg_unit := "Index" |}
  /\ (forall name : string,
        ~ In name pollutant_options ->
        getitem gas_configs name = inl (KeyError name)).
Proof.
  split; [reflexivity|]. split; [reflexivity|].
  split; [reflexivity|]. split; [reflexivity|].
  intros name Hname. apply getitem_absent.
  rewrite gas_configs_keys. exact Hname.
Qed.

Lemma registry_lookup_exact_ozone :
  ~ In "Ozone (O3)" pollutant_options
  /\ getitem gas_configs "Ozone (O3)" = inl (KeyError "Ozone (O3)").
Proof.
  assert (Hout : ~ In "Ozone (O3)" pollutant_options).
  { unfold pollutant_options. simpl.
    intros [H|[H|[H|[H|[]]]]]; discriminate H. }
  split; [exact Hout|].
  destruct registry_lookup_exact as (_ & _ & _ & _ & Hother).
  exact (Hother "Ozone (O3)" Hout).
Defined.

(** C8. Each of the four profiles of the registry has
    [min <= max] and a non-empty palette. *)
Theorem registry_profiles_well_formed :
  length (values gas_configs) = 4%nat
  /\ Forall (fun config =>
               num_le (cfg_min config) (cfg_max config) = true
               /\ cfg_palette config <> [])
            (values gas_configs).
Proof.
  split; [reflexivity|].
  unfold values, gas_configs, display. cbn [fold_left map fst snd].
  repeat (apply Forall_cons; [split; [reflexivity | discriminate]|]).
  apply Forall_nil.
Qed.

(* ================================================================== *)
(** * Insight panel and file names *)
(* ================================================================== *)

(** The text is decided by the category that matches: a name that matches a
    single category gets the text of that category. *)
Lemma insight_by_category (name category : string) :
  matching_categories name = [category] ->
  insight name = insight category /\ insight name <> None.
Proof.
  unfold matching_categories, insight_categories, insight.
  cbn [List.filter].
  destruct (startswith name "Nitrogen"), (startswith name "Sulfur"),
    (startswith name "Carbon"), (startswith name "Aerosol");
    intros H; try discriminate H; injection H as <-;
    (split; [reflexivity | discriminate]).
Qed.

(** C9. The insight text is a function of the pollutant name alone, decided
    by the prefix category that matches; and for each of the four names of
    the registry exactly one of the categories Nitrogen, Sulfur, Carbon,
    Aerosol matches, so the chain of [startswith] tests never falls
    through: some text is shown. *)
Theorem insight_covers_registry (name : string) :
  In name (keys gas_configs) ->
  exists category text,
    matching_categories name = [category]
    /\ insight name = insight category
    /\ insight name = Some text.
Proof.
  rewrite gas_configs_keys. unfold pollutant_options.
  intros [<-|[<-|[<-|[<-|[]]]]].
  - exists "Nitrogen". eexists. repeat split.
  - exists "Sulfur". eexists. repeat split.
  - exists "Carbon". eexists. repeat split.
  - exists "Aerosol". eexists. repeat split.
Qed.

Lemma insight_covers_registry_aerosol :
  In "Aerosol Index (Dust/Smoke)" (keys gas_configs)
  /\ exists category text,
       matching_categories "Aerosol Index (Dust/Smoke)" = [category]
       /\ insight "Aerosol Index (Dust/Smoke)" = insight category
       /\ insight "Aerosol Index (Dust/Smoke)" = Some text.
Proof.
  assert (Hin : In "Aerosol Index (Dust/Smoke)" (keys gas_configs)).
  { rewrite gas_configs_keys. unfold pollutant_options. simpl. tauto. }
  split; [exact Hin|].
  exact (insight_covers_registry "Aerosol Index (Dust/Smoke)" Hin).
Defined.

(** The first field of each pollutant name. *)
Lemma safe_names :
  map safe_name pollutant_options
  = [inr "Nitrogen"; inr "Sulfur"; inr "Carbon"; inr "Aerosol"].
Proof. reflexivity. Qed.

(** C10. The short names used in the file name, i.e. the first
    space-delimited field of each of the four pollutant names, are
    [Nitrogen], [Sulfur], [Carbon], [Aerosol], pairwise distinct; so for a
    fixed year and month the file names of two different pollutants
    differ. *)
Theorem file_names_do_not_collide (p1 p2 s1 s2 : string) (year month : Z) :
  In p1 pollutant_options ->
  In p2 pollutant_options ->
  safe_name p1 = inr s1 ->
  safe_name p2 = inr s2 ->
  In s1 ["Nitrogen"; "Sulfur"; "Carbon"; "Aerosol"]
  /\ (s1 = s2 -> p1 = p2)
  /\ (csv_file_name s1 year month = csv_file_name s2 year month -> p1 = p2).
Proof.
  unfold pollutant_options.
  intros [<-|[<-|[<-|[<-|[]]]]] [<-|[<-|[<-|[<-|[]]]]] H1 H2;
    vm_compute in H1; vm_compute in H2;
    injection H1 as <-; injection H2 as <-;
    (split; [simpl; tauto|]);
    (split; [intros H; first [reflexivity | discriminate H]|]);
    unfold csv_file_name; cbn [append]; intros H;
    first [reflexivity | discriminate H].
Qed.

Lemma file_names_do_not_collide_no2_so2 :
  csv_file_name "Nitrogen" 2024 6 <> csv_file_name "Sulfur" 2024 6.
Proof.
  intros Heq.
  assert (H1 : In "Nitrogen Dioxide (NO2)" pollutant_options)
    by (unfold pollutant_options; simpl; tauto).
  assert (H2 : In "Sulfur Dioxide (SO2)" pollutant_options)
    by (unfold pollutant_options; simpl; tauto).
  destruct (file_names_do_not_collide
              "Nitrogen Dioxide (NO2)" "Sulfur Dioxide (SO2)"
              "Nitrogen" "Sulfur" 2024 6 H1 H2 eq_refl eq_refl)
    as (_ & _ & Hname).
  specialize (Hname Heq). discriminate Hname.
Defined.

(* ================================================================== *)
(** * The city loop *)
(* ================================================================== *)

Section Report.

Variable svc : Service.
Variables (pollutant : string) (config : Config) (year month : Z).
Variable img : Image.

Let call (cc : string * list float) : reduceRegion := reduce_at img (snd cc).

Let row (ca : (string * list float) * dict value) : Row :=
  expected_row pollutant config year month (fst (fst ca)) (snd ca).

Let answered (cc : string * list float) (d : dict value) : Prop :=
  getInfo svc (call cc) = inr d.

(** When the loop returns, every city was answered, [results] grew by one
    row per city in order, and one request per city was sent. *)
Lemma for_each_city_returns (cities : list (string * list float)) :
  forall results log log' rows,
    for_each_city svc pollutant config year month img cities results log
    = (log', inr rows) ->
    exists answers,
      Forall2 answered cities answers
      /\ rows = (results ++ map row (combine cities answers))%list
      /\ log' = (log ++ map call cities)%list.
Proof.
  induction cities as [|[city coords] rest IH]; intros results log log' rows.
  - simpl. unfold ret. intros H. injection H as <- <-.
    exists []. split; [constructor|]. now rewrite !app_nil_r.
  - simpl. unfold bind, fetch.
    destruct (getInfo svc (reduce_at img coords)) as [e|d] eqn:Hd;
      [discriminate|].
    intros H. apply IH in H. destruct H as (answers & Hall & -> & ->).
    exists (d :: answers). split; [constructor; assumption|].
    simpl. now rewrite <- !app_assoc.
Qed.

(** When the loop raises, the exception is the one a city's reduction
    raised, and the requests sent are those up to and including that
    city. *)
Lemma for_each_city_raises (cities : list (string * list float)) :
  forall results log log' e,
    for_each_city svc pollutant config year month img cities results log
    = (log', inl e) ->
    exists k city coords,
      nth_error cities k = Some (city, coords)
      /\ getInfo svc (reduce_at img coords) = inl e
      /\ log' = (log ++ firstn (S k) (map call cities))%list.
Proof.
  induction cities as [|[city coords] rest IH]; intros results log log' e.
  - simpl. unfold ret. discriminate.
  - simpl. unfold bind, fetch.
    destruct (getInfo svc (reduce_at img coords)) as [e'|d] eqn:Hd.
    + intros H. injection H as <- <-.
      exists 0%nat, city, coords. simpl. auto.
    + intros H. apply IH in H. destruct H as (k & c & xy & Hk & He & ->).
      exists (S k), c, xy. split; [exact Hk|]. split; [exact He|].
      simpl. now rewrite <- app_assoc.
Qed.

Lemma rows_cities (cities : list (string * list float)) answers :
  Forall2 answered cities answers ->
  map City (map row (combine cities answers)) = map fst cities.
Proof.
  induction 1 as [|cc d cities answers _ _ IH]; simpl; [reflexivity|].
  now rewrite IH.
Qed.

Lemma rows_nth (cities : list (string * list float)) answers :
  Forall2 answered cities answers ->
  forall i cc,
    nth_error cities i = Some cc ->
    exists d, answered cc d
              /\ nth_error (map row (combine cities answers)) i
                 = Some (row (cc, d)).
Proof.
  induction 1 as [|cc0 d0 cities answers H0 _ IH]; intros i cc Hi.
  - destruct i; discriminate.
  - destruct i as [|i]; simpl in *.
    + injection Hi as <-. now exists d0.
    + now apply IH.
Qed.

Lemma rows_fields (cities : list (string * list float)) answers :
  Forall (fun r => Pollutant r = pollutant
                   /\ Unit r = cfg_unit config
                   /\ Date r = str year ++ "-" ++ format_0d 2 month)
         (map row (combine cities answers)).
Proof.
  apply Forall_forall. intros r Hr. apply in_map_iff in Hr.
  destruct Hr as (ca & <- & _). now repeat split.
Qed.

(** A report that is returned holds the expected rows, was built from one
    answered request per city, and is named after the first field of the
    pollutant name. *)
Lemma generate_report_returns log log' report :
  generate_report svc pollutant config year month img log
  = (log', inr report) ->
  exists answers name,
    Forall2 answered (items locations) answers
    /\ df report = map row (combine (items locations) answers)
    /\ log' = (log ++ expected_calls img)%list
    /\ safe_name pollutant = inr name
    /\ file_name report = csv_file_name name year month.
Proof.
  unfold generate_report, bind, lift.
  destruct (for_each_city _ _ _ _ _ _ _ _ _) as [log1 [e|rows]] eqn:Hloop;
    [discriminate|].
  destruct (safe_name pollutant) as [e|name] eqn:Hname; [discriminate|].
  unfold ret. intros H. injection H as <- <-.
  apply for_each_city_returns in Hloop.
  destruct Hloop as (answers & Hall & -> & ->).
  exists answers, name. simpl. auto.
Qed.

(** A report fails only because some city's reduction did. *)
Lemma generate_report_raises log log' e :
  generate_report svc pollutant config year month img log
  = (log', inl e) ->
  exists k city coords,
    nth_error (items locations) k = Some (city, coords)
    /\ getInfo svc (reduce_at img coords) = inl e
    /\ log' = (log ++ firstn (S k) (expected_calls img))%list.
Proof.
  unfold generate_report, bind, lift.
  destruct (for_each_city _ _ _ _ _ _ _ _ _) as [log1 [e'|rows]] eqn:Hloop.
  - intros H. injection H as <- <-.
    apply for_each_city_raises in Hloop. exact Hloop.
  - destruct (safe_name_returns pollutant) as [name ->]. discriminate.
Qed.

(** The rows of a returned report name the cities of [locations], in
    order. *)
Lemma generate_report_cities log log' report :
  generate_report svc pollutant config year month img log
  = (log', inr report) ->
  map City (df report) = keys locations
  /\ length (df report) = 5%nat.
Proof.
  intros Hrun. apply generate_report_returns in Hrun.
  destruct Hrun as (answers & name & Hall & Hdf & _).
  assert (Hcities : map City (df report) = keys locations).
  { rewrite Hdf. eapply rows_cities; exact Hall. }
  split; [exact Hcities|].
  rewrite <- (length_map City), Hcities. reflexivity.
Qed.

(** Rows built from answers that carry no value for the band hold
    [None]. *)
Lemma rows_without_value (cities : list (string * list float)) answers :
  Forall2 answered cities answers ->
  (forall cc d, In cc cities -> answered cc d ->
                get d (cfg_band config) = PyNone) ->
  Forall (fun r => Value r = PyNone) (map row (combine cities answers)).
Proof.
  induction 1 as [|cc d cities answers Hd _ IH]; intros Hnone; simpl.
  - constructor.
  - constructor.
    + simpl. apply (Hnone cc d); [now left | exact Hd].
    + apply IH. intros cc' d' Hin. apply Hnone. now right.
Qed.

(** If the service answers the five requests, a report is returned. *)
Lemma generate_report_total log :
  (forall city coords,
      In (city, coords) (items locations) ->
      exists d, getInfo svc (reduce_at img coords) = inr d) ->
  exists log' report,
    generate_report svc pollutant config year month img log
    = (log', inr report).
Proof.
  intros Hall.
  destruct (generate_report _ _ _ _ _ _ log) as [log' [e|report]] eqn:Hrun.
  - apply generate_report_raises in Hrun.
    destruct Hrun as (k & city & coords & Hk & He & _).
    apply nth_error_In in Hk.
    destruct (Hall city coords Hk) as [d Hd]. congruence.
  - now exists log', report.
Qed.

End Report.

(* ================================================================== *)
(** * The dashboard *)
(* ================================================================== *)

Section Dashboard.

Variable svc : Service.

(** What a run that completes has put on the page. *)
Lemma dashboard_returns (w : Widgets) log log' page :
  dashboard svc w log = (log', inr page) ->
  exists config name,
    getitem gas_configs (pollutant w) = inr config
    /\ safe_name (pollutant w) = inr name
    /\ page_start_date page = start_date (year w) (month w)
    /\ page_end_date page = end_date (year w) (month w)
    /\ page_metric page = name
    /\ page_layer page = queried_image w config
    /\ page_insight page = insight (pollutant w)
    /\ (if generate_clicked w
        then exists report,
               page_report page = Some report
               /\ generate_report svc (pollutant w) config (year w) (month w)
                    (queried_image w config) log
                  = (log', inr report)
        else page_report page = None /\ log' = log).
Proof.
  unfold dashboard, bind, lift.
  destruct (getitem gas_configs (pollutant w)) as [e|config] eqn:Hcfg;
    [discriminate|].
  fold (safe_name (pollutant w)).
  destruct (safe_name (pollutant w)) as [e|name] eqn:Hname; [discriminate|].
  fold (queried_image w config).
  destruct (generate_clicked w).
  - destruct (generate_report _ _ _ _ _ _ log) as [log1 [e|report]] eqn:Hrun;
      [discriminate|].
    unfold ret. intros H. injection H as <- <-.
    exists config, name. simpl. repeat (split; [reflexivity|]).
    now exists report.
  - unfold ret. intros H. injection H as <- <-.
    exists config, name. simpl. repeat (split; [reflexivity|]).
    split; reflexivity.
Qed.

(** A run stops early only on an unknown pollutant or on a failed
    report. *)
Lemma dashboard_raises (w : Widgets) log log' e :
  dashboard svc w log = (log', inl e) ->
  getitem gas_configs (pollutant w) = inl e
  \/ exists config,
       getitem gas_configs (pollutant w) = inr config
       /\ generate_clicked w = true
       /\ generate_report svc (pollutant w) config (year w) (month w)
            (queried_image w config) log
          = (log', inl e).
Proof.
  unfold dashboard, bind, lift.
  destruct (getitem gas_configs (pollutant w)) as [e'|config] eqn:Hcfg.
  - intros H. injection H as _ <-. now left.
  - fold (safe_name (pollutant w)).
    destruct (safe_name_returns (pollutant w)) as [name ->].
    fold (queried_image w config).
    destruct (generate_clicked w); [|discriminate].
    destruct (generate_report _ _ _ _ _ _ log) as [log1 [e'|report]] eqn:Hrun;
      [|discriminate].
    intros H. injection H as <- <-. right. now exists config.
Qed.

End Dashboard.

(* ================================================================== *)
(** * Properties of the report *)
(* ================================================================== *)

(** C3. Whatever the pollutant, year, month and raster, and whatever the
    service answers (values or no values), a generated report has exactly
    five rows, one per city in the order Irbid, Amman, Zarqa, Aqaba, Mafraq.
    No report is generated only when the reduction of one of the cities
    raised. *)
Theorem report_has_one_row_per_city
    (svc : Service) (pollutant : string) (config : Config) (year month : Z)
    (img : Image) (log : list reduceRegion) :
  match generate_report svc pollutant config year month img log with
  | (_, inr report) =>
      length (df report) = 5%nat
      /\ map City (df report) = ["Irbid"; "Amman"; "Zarqa"; "Aqaba"; "Mafraq"]
  | (_, inl e) =>
      exists city coords,
        In (city, coords) (items locations)
        /\ getInfo svc (reduce_at img coords) = inl e
  end.
Proof.
  destruct (generate_report _ _ _ _ _ _ log) as [log' [e|report]] eqn:Hrun.
  - apply generate_report_raises in Hrun.
    destruct Hrun as (k & city & coords & Hk & He & _).
    exists city, coords. split; [|exact He].
    eapply nth_error_In; exact Hk.
  - apply generate_report_cities in Hrun.
    destruct Hrun as [Hcities Hlen]. split; [exact Hlen|exact Hcities].
Qed.


(** C4. A city whose reduction yields no value (the answer lacks the band or
    maps it to [None]) keeps its row, at its position, with [Value] equal to
    [None], which is no number and in particular not zero.  When the date
    range matches no image of the collection, the service answers every
    reduction without a value, the report is generated all the same, and
    the [Value] of each of its five rows is [None]. *)
Theorem missing_values_are_reported_as_none
    (svc : Service) (w : Widgets) (config : Config)
    (log : list reduceRegion) :
  getitem gas_configs (pollutant w) = inr config ->
  generate_clicked w = true ->
  (forall log' page,
      dashboard svc w log = (log', inr page) ->
      exists report,
        page_report page = Some report
        /\ forall i city coords answer,
             nth_error (items locations) i = Some (city, coords) ->
             getInfo svc (reduce_at (queried_image w config) coords)
             = inr answer ->
             lookup answer (cfg_band config) = None
             \/ lookup answer (cfg_band config) = Some PyNone ->
             exists row,
               nth_error (df report) i = Some row
               /\ City row = city
               /\ Value row = PyNone
               /\ forall n, Value row <> PyNum n)
  /\ (empty_composite_has_no_value svc ->
      size svc
        (select
           (filterDate (ImageCollection_of (cfg_collection config))
                       (start_date (year w) (month w))
                       (end_date (year w) (month w)))
           (cfg_band config))
      = 0%nat ->
      exists log' page report,
        dashboard svc w log = (log', inr page)
        /\ page_report page = Some report
        /\ map City (df report) = city_names
        /\ Forall (fun row => Value row = PyNone) (df report)).
Proof.
  intros Hcfg Hclick. split.
  - intros log' page Hrun. apply dashboard_returns in Hrun.
    destruct Hrun as (config' & name & Hcfg' & _ & _ & _ & _ & _ & _ & Hrep).
    rewrite Hcfg in Hcfg'. injection Hcfg' as <-.
    rewrite Hclick in Hrep. destruct Hrep as (report & Hpage & Hgen).
    exists report. split; [exact Hpage|].
    intros i city coords answer Hi Hanswer Hmissing.
    apply generate_report_returns in Hgen.
    destruct Hgen as (answers & _ & Hall & Hdf & _).
    destruct (rows_nth svc (pollutant w) config (year w) (month w)
                (queried_image w config) _ _ Hall i (city, coords) Hi)
      as (d & Hd & Hrow).
    simpl in Hd. rewrite Hanswer in Hd. injection Hd as <-.
    eexists. rewrite Hdf. split; [exact Hrow|]. split; [reflexivity|].
    assert (Hnone : get answer (cfg_band config) = PyNone).
    { unfold get. destruct Hmissing as [-> | ->]; reflexivity. }
    simpl. split; [exact Hnone|]. rewrite Hnone. discriminate.
  - intros Hempty Hsize.
    assert (Hanswers : forall city coords,
               In (city, coords) (items locations) ->
               exists d, getInfo svc
                           (reduce_at (queried_image w config) coords)
                         = inr d).
    { intros city coords _.
      destruct (Hempty (reduce_at (queried_image w config) coords) Hsize)
        as (d & Hd & _).
      now exists d. }
    destruct (generate_report_total svc (pollutant w) config (year w)
                (month w) (queried_image w config) log Hanswers)
      as (log' & report & Hgen).
    destruct (dashboard svc w log) as [log1 [e|page]] eqn:Hrun.
    + apply dashboard_raises in Hrun.
      destruct Hrun as [Hbad | (config' & Hcfg' & _ & Hbad)].
      * congruence.
      * rewrite Hcfg in Hcfg'. injection Hcfg' as <-. congruence.
    + apply dashboard_returns in Hrun.
      destruct Hrun as (config' & name & Hcfg' & _ & _ & _ & _ & _ & _ & Hrep).
      rewrite Hcfg in Hcfg'. injection Hcfg' as <-.
      rewrite Hclick in Hrep. destruct Hrep as (report' & Hpage & Hgen').
      exists log1, page, report'.
      split; [reflexivity|]. split; [exact Hpage|].
      split; [apply (generate_report_cities _ _ _ _ _ _ _ _ _ Hgen')|].
      apply generate_report_returns in Hgen'.
      destruct Hgen' as (answers & _ & Hall & -> & _).
      eapply rows_without_value; [exact Hall|].
      intros cc d _ Hd.
      destruct (Hempty (reduce_at (queried_image w config) (snd cc)) Hsize)
        as (d' & Hd' & Hnone).
      rewrite Hd in Hd'. injection Hd' as <-. apply Hnone.
Qed.

(** The concrete service answers an empty composite without a value. *)
Lemma toy_empty_composite : empty_composite_has_no_value Toy.service.
Proof.
  intros call Hsize. simpl in Hsize. simpl. unfold Toy.answer.
  destruct (Toy.scenes (composite_of (EE.image call))) as [|s rest].
  - exists []. split; [reflexivity|]. intros band. reflexivity.
  - discriminate Hsize.
Qed.

Lemma missing_values_are_reported_as_none_toy :
  exists log' page report,
    dashboard Toy.service Toy.co_january_2019 [] = (log', inr page)
    /\ page_report page = Some report
    /\ map City (df report) = city_names
    /\ Forall (fun row => Value row = PyNone) (df report)
    /\ exists row,
         nth_error (df report) 0 = Some row
         /\ City row = "Irbid" /\ Value row = PyNone.
Proof.
  destruct (missing_values_are_reported_as_none
              Toy.service Toy.co_january_2019 _ [] eq_refl eq_refl)
    as [Hrow Hall].
  destruct (Hall toy_empty_composite eq_refl)
    as (log' & page & report & Hrun & Hpage & Hcities & Hnone).
  exists log', page, report.
  split; [exact Hrun|]. split; [exact Hpage|].
  split; [exact Hcities|]. split; [exact Hnone|].
  destruct (Hrow log' page Hrun) as (report' & Hpage' & Hrows).
  rewrite Hpage in Hpage'. injection Hpage' as <-.
  destruct (Hrows 0%nat "Irbid" [32.55%float; 35.85%float] []
              eq_refl eq_refl (or_introl eq_refl))
    as (row & Hnth & Hcity & Hvalue & _).
  exists row. auto.
Defined.

(** C5. With pollutant "Nitrogen Dioxide (NO2)", year 2024 and month 6 the
    dates are "2024-06-01" and "2024-07-01"; the report that is generated
    has five rows, each with unit "mol/m²" and date "2024-06", and is
    offered as "Jordan_AirQuality_Nitrogen_2024_6.csv".  No report is
    generated only when the reduction of one of the cities raised. *)
Theorem end_to_end_no2_june_2024 (svc : Service) :
  start_date 2024 6 = "2024-06-01"
  /\ end_date 2024 6 = "2024-07-01"
  /\ match
       dashboard svc
         {| pollutant := "Nitrogen Dioxide (NO2)";
            year := 2024;
            month := 6;
            generate_clicked := true |} []
     with
     | (_, inr page) =>
         page_start_date page = "2024-06-01"
         /\ page_end_date page = "2024-07-01"
         /\ exists report,
              page_report page = Some report
              /\ length (df report) = 5%nat
              /\ Forall (fun row => Unit row = "mol/m²"
                                    /\ Date row = "2024-06")
                        (df report)
              /\ file_name report = "Jordan_AirQuality_Nitrogen_2024_6.csv"
     | (_, inl e) =>
         exists config city coords,
           getitem gas_configs "Nitrogen Dioxide (NO2)" = inr config
           /\ In (city, coords) (items locations)
           /\ getInfo svc
                (reduce_at (image config "2024-06-01" "2024-07-01") coords)
              = inl e
     end.
Proof.
  split; [reflexivity|]. split; [reflexivity|].
  destruct (dashboard svc _ []) as [log' [e|page]] eqn:Hrun.
  - apply dashboard_raises in Hrun.
    destruct Hrun as [Hbad | (config & Hcfg & _ & Hgen)];
      [discriminate Hbad|].
    apply generate_report_raises in Hgen.
    destruct Hgen as (k & city & coords & Hk & He & _).
    exists config, city, coords. split; [exact Hcfg|].
    split; [eapply nth_error_In; exact Hk | exact He].
  - apply dashboard_returns in Hrun.
    destruct Hrun as (config & name & Hcfg & Hname & Hs & He & _ & _ & _
                      & report & Hpage & Hgen).
    split; [exact Hs|]. split; [exact He|].
    exists report. split; [exact Hpage|].
    vm_compute in Hcfg. injection Hcfg as <-.
    vm_compute in Hname. injection Hname as <-.
    split; [apply (generate_report_cities _ _ _ _ _ _ _ _ _ Hgen)|].
    apply generate_report_returns in Hgen.
    destruct Hgen as (answers & name & _ & Hdf & _ & Hname & Hfile).
    vm_compute in Hname. injection Hname as <-.
    split; [|rewrite Hfile; reflexivity].
    rewrite Hdf. eapply Forall_impl; [|apply rows_fields].
    intros row (_ & Hunit & Hdate). split.
    + rewrite Hunit. reflexivity.
    + rewrite Hdate. reflexivity.
Qed.

(** The page a session ends on is decided by its last interaction. *)
Lemma session_last (svc : Service) (history : list Widgets) (w : Widgets) :
  forall previous,
    session svc previous (history ++ [w]) = session svc None [w].
Proof.
  induction history as [|h history IH]; intros previous; simpl.
  - reflexivity.
  - destruct (rerun svc previous h) as [log [e|page]]; apply IH.
Qed.

(** C6. Whatever was on the page before and whatever interactions came
    before, the page after a rerun is the page a fresh session would show
    for the same widgets; and every row of its report carries the selected
    pollutant's name and the unit the registry gives for it, so a row of
    another pollutant's report cannot be among them. *)
Theorem report_reflects_current_selection
    (svc : Service) (history : list Widgets) (previous : option Page)
    (w : Widgets) :
  rerun svc previous w = rerun svc None w
  /\ session svc previous (history ++ [w]) = session svc None [w]
  /\ forall page report,
       session svc previous (history ++ [w]) = Some page ->
       page_report page = Some report ->
       exists config,
         getitem gas_configs (pollutant w) = inr config
         /\ Forall (fun row => Pollutant row = pollutant w
                               /\ Unit row = cfg_unit config)
                   (df report)
         /\ forall old_row,
              Pollutant old_row <> pollutant w ->
              ~ In old_row (df report).
Proof.
  split; [reflexivity|]. split; [apply session_last|].
  rewrite session_last. intros page report Hpage Hreport.
  simpl in Hpage. unfold rerun, main, bind in Hpage.
  destruct (dashboard svc w []) as [log [e|page']] eqn:Hrun;
    [discriminate Hpage|].
  unfold ret in Hpage. injection Hpage as ->.
  apply dashboard_returns in Hrun.
  destruct Hrun as (config & _ & Hcfg & _ & _ & _ & _ & _ & _ & Hrep).
  destruct (generate_clicked w).
  - destruct Hrep as (report' & Hreport' & Hgen).
    rewrite Hreport in Hreport'. injection Hreport' as <-.
    apply generate_report_returns in Hgen.
    destruct Hgen as (answers & _ & _ & Hdf & _).
    assert (Hrows : Forall (fun row => Pollutant row = pollutant w
                                       /\ Unit row = cfg_unit config)
                           (df report)).
    { rewrite Hdf. eapply Forall_impl; [|apply rows_fields].
      intros row (Hp & Hu & _). now split. }
    exists config. split; [exact Hcfg|]. split; [exact Hrows|].
    intros old_row Hold Hin.
    rewrite Forall_forall in Hrows. apply Hold, (Hrows old_row Hin).
  - destruct Hrep as [Hnone _]. congruence.
Qed.

Lemma report_reflects_current_selection_toy :
  exists page report,
    session Toy.service None ([Toy.co_january_2019] ++ [Toy.no2_june_2024])
    = Some page
    /\ page_report page = Some report
    /\ Forall (fun row => Pollutant row = "Nitrogen Dioxide (NO2)"
                          /\ Unit row = "mol/m²")
              (df report)
    /\ Forall (fun row => Pollutant row <> "Carbon Monoxide (CO)")
              (df report).
Proof.
  destruct (report_reflects_current_selection
              Toy.service [Toy.co_january_2019] None Toy.no2_june_2024)
    as (_ & _ & Hrows).
  eexists. eexists.
  split; [vm_compute; reflexivity|].
  split; [reflexivity|].
  match goal with
  | |- Forall _ (df ?r) /\ _ =>
      destruct (Hrows _ r eq_refl eq_refl) as (config & Hcfg & Hall & _)
  end.
  vm_compute in Hcfg. injection Hcfg as <-.
  split; [exact Hall|].
  eapply Forall_impl; [|exact Hall].
  intros row [Hp _]. rewrite Hp. discriminate.
Defined.

(* ================================================================== *)
(** * More on names and dates *)
(* ================================================================== *)

(** The first field of a split holds no separator, and the string is that
    field alone or that field, a separator and the rest. *)
Lemma split_first_field (sep : ascii) (s : string) :
  exists field fields,
    split sep s = field :: fields
    /\ Text.without sep field = true
    /\ (s = field \/ exists rest, s = field ++ String sep rest).
Proof.
  induction s as [|c r IH]; simpl.
  - exists EmptyString, []. auto.
  - destruct (Ascii.eqb_spec c sep) as [->|Hc].
    + exists EmptyString, (split sep r). split; [reflexivity|].
      split; [reflexivity|]. right. now exists r.
    + destruct IH as (f & fs & -> & Hf & Hs).
      exists (String c f), fs. split; [reflexivity|]. split.
      * unfold Text.without in *. simpl. rewrite Hf.
        apply Ascii.eqb_neq in Hc. now rewrite Hc.
      * destruct Hs as [->|[rest ->]]; [now left|].
        right. now exists rest.
Qed.

Lemma prefix_append (a b : string) : String.prefix a (a ++ b) = true.
Proof.
  induction a as [|c a IH]; simpl; [now destruct b|].
  destruct (ascii_dec c c) as [_|Hne]; [exact IH|contradiction].
Qed.

Lemma append_empty (s : string) : s ++ "" = s.
Proof. induction s as [|c s IH]; simpl; [reflexivity|]. now rewrite IH. Qed.

(** [pollutant.split(" ")[0]] never raises, for any string: it returns
    the part of the name before its first space, which the name starts
    with and which holds no space itself. *)
Theorem safe_name_is_first_word (p : string) :
  exists name,
    safe_name p = inr name
    /\ Text.without " " name = true
    /\ startswith p name = true
    /\ (p = name \/ exists rest, p = name ++ String " " rest).
Proof.
  unfold safe_name.
  destruct (split_first_field " " p) as (f & fs & -> & Hf & Hs).
  exists f. split; [reflexivity|]. split; [exact Hf|]. split; [|exact Hs].
  unfold startswith. destruct Hs as [->|[rest ->]].
  - rewrite <- (append_empty f) at 2. apply prefix_append.
  - apply prefix_append.
Qed.

(** Cutting at a character that the left parts do not hold is
    unambiguous. *)
Lemma cut_unique (c : ascii) (a a' b b' : string) :
  Text.without c a = true ->
  Text.without c a' = true ->
  a ++ String c b = a' ++ String c b' ->
  a = a' /\ b = b'.
Proof.
  unfold Text.without. revert a'.
  induction a as [|x a IH]; intros [|x' a']; simpl; intros Ha Ha' H.
  - injection H as ->. auto.
  - injection H as <- _. rewrite Ascii.eqb_refl in Ha'. discriminate Ha'.
  - injection H as -> _. rewrite Ascii.eqb_refl in Ha. discriminate Ha.
  - injection H as -> H.
    apply andb_true_iff in Ha. apply andb_true_iff in Ha'.
    destruct (IH a' (proj2 Ha) (proj2 Ha') H) as [-> ->]. auto.
Qed.

Lemma append_inv_head (s a b : string) : s ++ a = s ++ b -> a = b.
Proof.
  induction s as [|c s IH]; simpl; intros H; [exact H|].
  injection H as H. exact (IH H).
Qed.

(** ** The characters of [str] *)

Lemma uint_digits (d : Decimal.uint) :
  Text.all_chars Text.is_digit (NilEmpty.string_of_uint d) = true.
Proof. induction d; simpl; auto. Qed.

Lemma uint_digits_nilzero (d : Decimal.uint) :
  Text.all_chars Text.is_digit (NilZero.string_of_uint d) = true.
Proof. destruct d; try reflexivity; apply (uint_digits (_ d)). Qed.

Lemma all_chars_weaken (p q : ascii -> bool) (s : string) :
  (forall c, p c = true -> q c = true) ->
  Text.all_chars p s = true -> Text.all_chars q s = true.
Proof.
  intros Hpq. induction s as [|c s IH]; simpl; [reflexivity|].
  intros H. apply andb_true_iff in H. destruct H as [Hc Hs].
  now rewrite (Hpq c Hc), (IH Hs).
Qed.

Lemma digit_is_not (c x : ascii) :
  Text.is_digit x = false -> forall y, Text.is_digit y = true ->
  x = c -> negb (Ascii.eqb y c) = true.
Proof.
  intros Hx y Hy <-. destruct (Ascii.eqb_spec y x) as [->|_]; [|reflexivity].
  congruence.
Qed.

(** [str] of a natural number is made of digits. *)
Lemma str_digits (n : Z) :
  0 <= n -> Text.all_chars Text.is_digit (str n) = true.
Proof.
  intros Hn. unfold str. destruct n as [|p|p]; try lia.
  - reflexivity.
  - apply uint_digits_nilzero.
Qed.

(** [str] of any integer holds neither ["_"] nor ["."]. *)
Lemma str_without (n : Z) (c : ascii) :
  Text.is_digit c = false -> c <> "-"%char ->
  Text.without c (str n) = true.
Proof.
  intros Hc Hminus. unfold Text.without.
  assert (Hd : forall d, Text.all_chars (fun x => negb (Ascii.eqb x c))
                           (NilZero.string_of_uint d) = true).
  { intros d. apply (all_chars_weaken Text.is_digit);
      [|apply uint_digits_nilzero].
    intros y Hy. exact (digit_is_not c c Hc y Hy eq_refl). }
  unfold str. destruct n as [|p|p].
  - apply (Hd Decimal.Nil).
  - apply Hd.
  - change (NilZero.string_of_int (Z.to_int (Z.neg p)))
      with (String "-" (NilZero.string_of_uint (Pos.to_uint p))).
    cbn [Text.all_chars]. rewrite Hd.
    destruct (Ascii.eqb_spec "-"%char c) as [Heq|_]; [|reflexivity].
    now elim Hminus.
Qed.

(** [str] is injective. *)
Lemma str_inj (a b : Z) : str a = str b -> a = b.
Proof.
  unfold str. intros H.
  assert (Hparse : forall z, NilZero.int_of_string
                               (NilZero.string_of_int (Z.to_int z))
                             = Some (Z.to_int z)).
  { intros z. apply NilZero.isi; destruct z; simpl; try discriminate;
      intros Hnil; injection Hnil as Hnil;
      exact (DecimalPos.Unsigned.to_uint_nonnil _ Hnil). }
  apply DecimalZ.to_int_inj.
  pose proof (Hparse a) as Ha. rewrite H, Hparse in Ha.
  now injection Ha.
Qed.

(** The file name tells the short name, the year and the month apart, for
    all integers and all short names without ["_"]: two selections share a
    file name only if they agree on all three. *)
Theorem file_name_determines_selection
    (s1 s2 : string) (y1 m1 y2 m2 : Z) :
  Text.without "_" s1 = true ->
  Text.without "_" s2 = true ->
  csv_file_name s1 y1 m1 = csv_file_name s2 y2 m2 ->
  s1 = s2 /\ y1 = y2 /\ m1 = m2.
Proof.
  intros H1 H2 H. unfold csv_file_name in H.
  apply append_inv_head in H. cbn [append] in H.
  destruct (cut_unique "_" _ _ _ _ H1 H2 H) as [Hs Hrest].
  assert (Hu : forall z, Text.without "_" (str z) = true)
    by (intros z; apply str_without; [reflexivity|discriminate]).
  destruct (cut_unique "_" _ _ _ _ (Hu y1) (Hu y2) Hrest) as [Hy Htail].
  assert (Hdot : forall z, Text.without "." (str z) = true)
    by (intros z; apply str_without; [reflexivity|discriminate]).
  destruct (cut_unique "." _ _ _ _ (Hdot m1) (Hdot m2) Htail) as [Hm _].
  split; [exact Hs|]. split; apply str_inj; assumption.
Qed.

Lemma file_name_determines_selection_example :
  csv_file_name "Carbon" 2024 1 <> csv_file_name "Carbon" 2024 11.
Proof.
  intros H.
  destruct (file_name_determines_selection
              "Carbon" "Carbon" 2024 1 2024 11 eq_refl eq_refl H)
    as (_ & _ & Hm).
  discriminate Hm.
Defined.

(** The two-digit month strings of the months 1..12 hold no ["-"] and are
    pairwise different, by exhaustive evaluation. *)
Lemma month_strings (m1 m2 : Z) :
  1 <= m1 <= 12 -> 1 <= m2 <= 12 ->
  Text.without "-" (format_0d 2 m1) = true
  /\ (format_0d 2 m1 = format_0d 2 m2 -> m1 = m2).
Proof.
  intros H1 H2.
  assert (Hall :
    forallb
      (fun a =>
         Text.without "-" (format_0d 2 a)
         && forallb
              (fun b => implb (String.eqb (format_0d 2 a) (format_0d 2 b))
                              (a =? b))
              (Calendar.zrange 1 12))
      (Calendar.zrange 1 12) = true) by (vm_compute; reflexivity).
  rewrite forallb_forall in Hall.
  specialize (Hall m1 (in_zrange 1 12 m1 H1)).
  apply andb_true_iff in Hall. destruct Hall as [Hw Hall].
  split; [exact Hw|]. intros Heq.
  rewrite forallb_forall in Hall.
  specialize (Hall m2 (in_zrange 1 12 m2 H2)).
  rewrite Heq, String.eqb_refl in Hall. simpl in Hall.
  now apply Z.eqb_eq.
Qed.

(** For years from 0 on and months 1..12, the date label of the report and
    the start date of the query each identify the year and the month. *)
Theorem dates_determine_month (y1 m1 y2 m2 : Z) :
  0 <= y1 -> 0 <= y2 -> 1 <= m1 <= 12 -> 1 <= m2 <= 12 ->
  (str y1 ++ "-" ++ format_0d 2 m1 = str y2 ++ "-" ++ format_0d 2 m2 ->
   y1 = y2 /\ m1 = m2)
  /\ (start_date y1 m1 = start_date y2 m2 -> y1 = y2 /\ m1 = m2).
Proof.
  intros Hy1 Hy2 Hm1 Hm2.
  assert (Hyear : forall y, 0 <= y -> Text.without "-" (str y) = true).
  { intros y Hy. unfold Text.without.
    apply (all_chars_weaken Text.is_digit); [|now apply str_digits].
    intros c Hc. exact (digit_is_not "-" "-" eq_refl c Hc eq_refl). }
  destruct (month_strings m1 m2 Hm1 Hm2) as [Hw1 Hinj].
  destruct (month_strings m2 m1 Hm2 Hm1) as [Hw2 _].
  assert (Hlabel :
    forall t1 t2,
      str y1 ++ "-" ++ format_0d 2 m1 ++ t1
      = str y2 ++ "-" ++ format_0d 2 m2 ++ t2 ->
      (t1 = "" /\ t2 = "") \/ (t1 = "-01" /\ t2 = "-01") ->
      y1 = y2 /\ m1 = m2).
  { intros t1 t2 H Ht. cbn [append] in H.
    destruct (cut_unique "-" _ _ _ _ (Hyear y1 Hy1) (Hyear y2 Hy2) H)
      as [Hy Hrest].
    split; [now apply str_inj|]. apply Hinj.
    destruct Ht as [[-> ->]|[-> ->]].
    - now rewrite !append_empty in Hrest.
    - cbn [append] in Hrest.
      exact (proj1 (cut_unique "-" _ _ _ _ Hw1 Hw2 Hrest)). }
  split; intros H.
  - apply (Hlabel "" ""); [|now left].
    now rewrite !append_empty.
  - apply (Hlabel "-01" "-01"); [exact H|now right].
Qed.

Lemma dates_determine_month_example :
  start_date 2024 1 <> start_date 2024 11.
Proof.
  intros H.
  destruct (dates_determine_month 2024 1 2024 11
              ltac:(lia) ltac:(lia) ltac:(lia) ltac:(lia)) as [_ Hstart].
  destruct (Hstart H) as [_ Hm]. discriminate Hm.
Defined.

(** For every integer year and every month 1..12, the window ends where the
    window of the next month starts: consecutive months leave no gap and
    do not overlap. *)
Theorem windows_are_contiguous (y m : Z) :
  1 <= m <= 12 ->
  end_date y m
  = start_date (fst (Calendar.next_month y m))
               (snd (Calendar.next_month y m)).
Proof.
  intros Hm. unfold end_date, Calendar.next_month.
  destruct (Z.ltb_spec m 12) as [Hlt|Hge];
    destruct (Z.eqb_spec m 12) as [Heq|Hne]; try lia.
  - reflexivity.
  - reflexivity.
Qed.

Lemma windows_are_contiguous_december :
  end_date 2025 12 = start_date 2026 1.
Proof.
  exact (windows_are_contiguous 2025 12 ltac:(lia)).
Defined.

(* ================================================================== *)
(** * More on dictionaries *)
(* ================================================================== *)

Section DictFacts.

Context {V : Type}.

(** Assigning to a new key appends the entry. *)
Lemma setitem_new (d : dict V) (k : string) (v : V) :
  ~ In k (keys d) -> setitem d k v = (d ++ [(k, v)])%list.
Proof.
  induction d as [|[k' v'] d IH]; simpl; intros Hk; [reflexivity|].
  destruct (String.eqb_spec k' k) as [->|_].
  - exfalso. apply Hk. now left.
  - rewrite IH; [reflexivity|]. intros Hin. apply Hk. now right.
Qed.

Lemma fold_setitem_distinct (entries : list (string * V)) :
  forall d : dict V,
    NoDup (keys d ++ map fst entries) ->
    fold_left (fun d kv => setitem d (fst kv) (snd kv)) entries d
    = (d ++ entries)%list.
Proof.
  induction entries as [|[k v] entries IH]; intros d Hnd; simpl.
  - now rewrite app_nil_r.
  - simpl in Hnd. rewrite setitem_new.
    + rewrite IH.
      * now rewrite <- app_assoc.
      * unfold keys in *. rewrite map_app. simpl. rewrite <- app_assoc.
        simpl. exact Hnd.
    + apply NoDup_remove_2 in Hnd. intros Hin. apply Hnd.
      apply in_or_app. now left.
Qed.


(** With distinct keys, an entry is found under its key. *)
Lemma lookup_entry (d : dict V) (k : string) (v : V) :
  NoDup (keys d) -> In (k, v) d -> lookup d k = Some v.
Proof.
  induction d as [|[k' v'] d IH]; simpl; intros Hnd Hin; [contradiction|].
  apply NoDup_cons_iff in Hnd. destruct Hnd as [Hfresh Hnd].
  destruct Hin as [Heq|Hin].
  - injection Heq as -> ->. now rewrite String.eqb_refl.
  - destruct (String.eqb_spec k' k) as [->|_]; [|now apply IH].
    exfalso. apply Hfresh. unfold keys. apply in_map_iff.
    now exists (k, v).
Qed.

(** A dictionary display with pairwise distinct keys holds its entries in
    the order written, so iteration follows that order, and each key
    subscripts to the value written next to it. *)
Theorem display_keeps_distinct_entries (entries : list (string * V)) :
  NoDup (map fst entries) ->
  items (display entries) = entries
  /\ forall k v, In (k, v) entries -> getitem (display entries) k = inr v.
Proof.
  intros Hnd.
  assert (Hd : display entries = entries).
  { unfold display. now rewrite fold_setitem_distinct. }
  split; [exact Hd|].
  intros k v Hin. unfold getitem. rewrite Hd.
  now rewrite (lookup_entry entries k v Hnd Hin).
Qed.

End DictFacts.

Lemma display_keeps_distinct_entries_locations :
  keys locations = city_names
  /\ getitem locations "Aqaba" = inr [29.53%float; 35.00%float].
Proof.
  assert (Hnd : NoDup city_names).
  { unfold city_names.
    repeat (apply NoDup_cons; [simpl; intuition discriminate|]).
    apply NoDup_nil. }
  destruct (display_keeps_distinct_entries
              [ ("Irbid", [32.55%float; 35.85%float]);
                ("Amman", [31.95%float; 35.92%float]);
                ("Zarqa", [32.06%float; 36.10%float]);
                ("Aqaba", [29.53%float; 35.00%float]);
                ("Mafraq", [32.34%float; 36.24%float]) ] Hnd)
    as [Hitems Hget].
  split.
  - unfold keys, locations. unfold items in Hitems. rewrite Hitems.
    reflexivity.
  - apply Hget. simpl. tauto.
Defined.

(* ================================================================== *)
(** * More on the report *)
(* ================================================================== *)

Section ReportFacts.

Variable svc : Service.
Variables (pollutant : string) (config : Config) (year month : Z).
Variable img : Image.

(** Every row of a returned report holds what the service answered for its
    city: the value stored under the band, whatever it is, next to the
    city, the pollutant, the unit and the date label.  Other bands of the
    answer are ignored. *)
Theorem rows_hold_the_answers log log' report :
  generate_report svc pollutant config year month img log
  = (log', inr report) ->
  forall i city coords,
    nth_error (items locations) i = Some (city, coords) ->
    exists answer,
      getInfo svc (reduce_at img coords) = inr answer
      /\ nth_error (df report) i
         = Some {| City := city;
                   Pollutant := pollutant;
                   Value := get answer (cfg_band config);
                   Unit := cfg_unit config;
                   Date := str year ++ "-" ++ format_0d 2 month |}
      /\ forall v, lookup answer (cfg_band config) = Some v ->
                   exists row, nth_error (df report) i = Some row
                               /\ Value row = v.
Proof.
  intros Hrun i city coords Hi.
  apply generate_report_returns in Hrun.
  destruct Hrun as (answers & _ & Hall & Hdf & _).
  destruct (rows_nth svc pollutant config year month img _ _ Hall i
              (city, coords) Hi) as (d & Hd & Hrow).
  exists d. split; [exact Hd|]. rewrite Hdf. split; [exact Hrow|].
  intros v Hv. eexists. split; [exact Hrow|].
  simpl. unfold get. now rewrite Hv.
Qed.

(** A report is returned exactly when the service answers the request of
    each of the five cities: one refusal and there is no report at all. *)
Theorem report_is_all_or_nothing log :
  (exists log' report,
      generate_report svc pollutant config year month img log
      = (log', inr report))
  <-> (forall city coords,
          In (city, coords) (items locations) ->
          exists d, getInfo svc (reduce_at img coords) = inr d).
Proof.
  split.
  - intros (log' & report & Hrun) city coords Hin.
    apply In_nth_error in Hin. destruct Hin as [i Hi].
    apply generate_report_returns in Hrun.
    destruct Hrun as (answers & _ & Hall & _).
    destruct (rows_nth svc pollutant config year month img _ _ Hall i
                (city, coords) Hi) as (d & Hd & _).
    now exists d.
  - apply generate_report_total.
Qed.

(** The loop stops at the first city whose reduction raises. *)
Lemma for_each_city_first_failure (cities : list (string * list float)) :
  forall results log k city coords e,
    nth_error cities k = Some (city, coords) ->
    (forall j c xy, (j < k)%nat -> nth_error cities j = Some (c, xy) ->
                    exists d, getInfo svc (reduce_at img xy) = inr d) ->
    getInfo svc (reduce_at img coords) = inl e ->
    for_each_city svc pollutant config year month img cities results log
    = ((log ++ firstn (S k)
                 (map (fun cc => reduce_at img (snd cc)) cities))%list,
       inl e).
Proof.
  induction cities as [|[c0 xy0] rest IH];
    intros results log k city coords e Hk Hbefore He.
  - destruct k; discriminate Hk.
  - destruct k as [|k]; simpl in Hk |- *; unfold bind, fetch.
    + injection Hk as -> ->. now rewrite He.
    + destruct (Hbefore 0%nat c0 xy0 ltac:(lia) eq_refl) as [d ->].
      rewrite (IH _ _ k city coords e Hk); [|intros j c xy Hj Hnth|exact He].
      * now rewrite <- app_assoc.
      * apply (Hbefore (S j) c xy); [lia|exact Hnth].
Qed.

(** When the cities before some city are answered and that city's
    reduction raises, the report fails with that very exception, the
    requests up to and including that city have been sent, and the cities
    after it are not asked. *)
Theorem first_failure_aborts_the_report log k city coords e :
  nth_error (items locations) k = Some (city, coords) ->
  (forall j c xy, (j < k)%nat ->
                  nth_error (items locations) j = Some (c, xy) ->
                  exists d, getInfo svc (reduce_at img xy) = inr d) ->
  getInfo svc (reduce_at img coords) = inl e ->
  generate_report svc pollutant config year month img log
  = ((log ++ firstn (S k) (expected_calls img))%list, inl e).
Proof.
  intros Hk Hbefore He. unfold generate_report, bind.
  now rewrite (for_each_city_first_failure _ _ _ k city coords e
                 Hk Hbefore He).
Qed.

End ReportFacts.

(* ================================================================== *)
(** * More on the dashboard *)
(* ================================================================== *)

Lemma append_assoc (a b c : string) : (a ++ b) ++ c = a ++ b ++ c.
Proof.
  induction a as [|x a IH]; simpl; [reflexivity|]. now rewrite IH.
Qed.

Section DashboardFacts.

Variable svc : Service.

(** With a pollutant that is not one of the four options the run stops
    with [KeyError] on that name before anything is sent to the service,
    whether the button was clicked or not. *)
Theorem unknown_pollutant_stops_the_run (w : Widgets) log :
  ~ In (pollutant w) pollutant_options ->
  dashboard svc w log = (log, inl (KeyError (pollutant w))).
Proof.
  intros Hout. unfold dashboard, bind, lift.
  rewrite getitem_absent; [reflexivity|].
  rewrite gas_configs_keys. exact Hout.
Qed.


(** On a page with a report, the pieces agree with each other: the file is
    named after the short name shown in the metric, every row's date label
    followed by ["-01"] is the start date of the query, and the raster of
    the map layer is the one the reductions were run on, filtered to the
    dates shown. *)
Theorem page_is_consistent (w : Widgets) log log' page report :
  dashboard svc w log = (log', inr page) ->
  page_report page = Some report ->
  exists config,
    getitem gas_configs (pollutant w) = inr config
    /\ file_name report
       = csv_file_name (page_metric page) (year w) (month w)
    /\ Forall (fun row => Date row ++ "-01" = page_start_date page)
              (df report)
    /\ page_layer page
       = image config (page_start_date page) (page_end_date page)
    /\ log' = (log ++ expected_calls (page_layer page))%list.
Proof.
  intros Hrun Hreport. apply dashboard_returns in Hrun.
  destruct Hrun as (config & name & Hcfg & Hname & Hs & He & Hmetric
                    & Hlayer & _ & Hrep).
  destruct (generate_clicked w).
  - destruct Hrep as (report' & Hreport' & Hgen).
    rewrite Hreport in Hreport'. injection Hreport' as <-.
    apply generate_report_returns in Hgen.
    destruct Hgen as (answers & name' & _ & Hdf & Hlog & Hname' & Hfile).
    rewrite Hname in Hname'. injection Hname' as <-.
    exists config. split; [exact Hcfg|].
    split; [rewrite Hmetric; exact Hfile|]. split; [|split].
    + rewrite Hdf, Hs. eapply Forall_impl; [|apply rows_fields].
      intros row (_ & _ & ->). unfold start_date.
      now rewrite !append_assoc.
    + rewrite Hlayer, Hs, He. reflexivity.
    + rewrite Hlayer. exact Hlog.
  - destruct Hrep as [Hnone _]. congruence.
Qed.

End DashboardFacts.

(* ================================================================== *)
(** * More on the insight panel *)
(* ================================================================== *)

(** A string starts with at most one of the four categories. *)
Lemma categories_exclude_each_other (p : string) :
  (length (matching_categories p) <= 1)%nat.
Proof.
  unfold matching_categories, insight_categories, startswith.
  destruct p as [|c r]; [simpl; lia|].
  cbn [List.filter String.prefix].
  destruct (ascii_dec "N" c) as [<-|_];
    [|destruct (ascii_dec "S" c) as [<-|_];
      [|destruct (ascii_dec "C" c) as [<-|_]]].
  - cbn. destruct (String.prefix _ r); simpl; lia.
  - cbn. destruct (String.prefix _ r); simpl; lia.
  - cbn. destruct (String.prefix _ r); simpl; lia.
  - destruct (ascii_dec "A" c) as [<-|_]; cbn;
      [destruct (String.prefix _ r)|]; simpl; lia.
Qed.

(** For every string, registry name or not: at most one branch of the
    [startswith] chain applies, so the order of the branches does not
    matter; a text is shown exactly when the name starts with one of the
    four categories, and nothing at all otherwise. *)
Theorem insight_branches_are_exclusive (p : string) :
  (length (matching_categories p) <= 1)%nat
  /\ (insight p = None <-> matching_categories p = [])
  /\ (forall category,
        In category (matching_categories p) ->
        startswith p category = true /\ insight p = insight category).
Proof.
  pose proof (categories_exclude_each_other p) as Hone.
  split; [exact Hone|]. split.
  - unfold matching_categories, insight_categories, insight in *.
    cbn [List.filter] in *.
    destruct (startswith p "Nitrogen"), (startswith p "Sulfur"),
      (startswith p "Carbon"), (startswith p "Aerosol");
      split; intros H; try reflexivity; discriminate H.
  - intros category Hin.
    destruct (matching_categories p) as [|c [|c' rest]] eqn:Hm.
    + contradiction.
    + destruct Hin as [<-|[]]. split.
      * assert (Hc : In c (matching_categories p))
          by (rewrite Hm; now left).
        unfold matching_categories in Hc. apply filter_In in Hc.
        exact (proj2 Hc).
      * exact (proj1 (insight_by_category p c Hm)).
    + simpl in Hone. lia.
Qed.

(* ================================================================== *)
(** * Authentication *)
(* ================================================================== *)






(* ================================================================== *)
(** * The theorems above on sample inputs *)
(* ================================================================== *)

Lemma rows_hold_the_answers_amman :
  exists report row,
    snd (generate_report Toy.service "Nitrogen Dioxide (NO2)" Sample.config
           2024 6 Sample.img [])
    = inr report
    /\ nth_error (df report) 1 = Some row
    /\ City row = "Amman"
    /\ Value row = PyNum (PyFloat 0.00005).
Proof.
  destruct (generate_report Toy.service "Nitrogen Dioxide (NO2)"
              Sample.config 2024 6 Sample.img [])
    as [log [e|report]] eqn:Hrun; [vm_compute in Hrun; discriminate Hrun|].
  destruct (rows_hold_the_answers Toy.service "Nitrogen Dioxide (NO2)"
              Sample.config 2024 6 Sample.img [] log report Hrun
              1%nat "Amman" [31.95%float; 35.92%float] eq_refl)
    as (answer & Hanswer & Hrow & _).
  vm_compute in Hanswer. injection Hanswer as <-.
  eexists. eexists. split; [reflexivity|]. split; [exact Hrow|].
  split; reflexivity.
Defined.

Lemma report_is_all_or_nothing_offline :
  ~ exists log' report,
      generate_report Toy.offline "Nitrogen Dioxide (NO2)" Sample.config
        2024 6 Sample.img []
      = (log', inr report).
Proof.
  intros Hrun.
  destruct (report_is_all_or_nothing Toy.offline "Nitrogen Dioxide (NO2)"
              Sample.config 2024 6 Sample.img []) as [Hanswered _].
  destruct (Hanswered Hrun "Irbid" [32.55%float; 35.85%float]) as [d Hd].
  - simpl. tauto.
  - discriminate Hd.
Defined.

Lemma first_failure_aborts_the_report_zarqa :
  generate_report Sample.flaky "Nitrogen Dioxide (NO2)" Sample.config
    2024 6 Sample.img []
  = (firstn 3 (expected_calls Sample.img), inl (EEException "timeout")).
Proof.
  apply (first_failure_aborts_the_report Sample.flaky
           "Nitrogen Dioxide (NO2)" Sample.config 2024 6 Sample.img []
           2%nat "Zarqa" [32.06%float; 36.10%float]
           (EEException "timeout")).
  - reflexivity.
  - intros j c xy Hj Hnth.
    destruct j as [|[|j]]; [| |lia];
      vm_compute in Hnth; injection Hnth as <- <-;
      eexists; vm_compute; reflexivity.
  - reflexivity.
Defined.

Lemma unknown_pollutant_stops_the_run_ozone :
  dashboard Toy.service Sample.ozone [] = ([], inl (KeyError "Ozone (O3)")).
Proof.
  apply (unknown_pollutant_stops_the_run Toy.service Sample.ozone []).
  simpl. intros [H|[H|[H|[H|[]]]]]; discriminate H.
Defined.


Lemma page_is_consistent_no2_june_2024 :
  exists page report,
    snd (dashboard Toy.service Toy.no2_june_2024 []) = inr page
    /\ page_report page = Some report
    /\ file_name report = csv_file_name (page_metric page) 2024 6
    /\ Forall (fun row => Date row ++ "-01" = page_start_date page)
              (df report).
Proof.
  destruct (dashboard Toy.service Toy.no2_june_2024 [])
    as [log [e|page]] eqn:Hrun; [vm_compute in Hrun; discriminate Hrun|].
  destruct (page_report page) as [report|] eqn:Hreport.
  - destruct (page_is_consistent Toy.service Toy.no2_june_2024 [] log page
                report Hrun Hreport) as (config & _ & Hfile & Hdates & _).
    exists page, report. auto.
  - vm_compute in Hrun. injection Hrun as _ <-. discriminate Hreport.
Defined.

Lemma insight_branches_are_exclusive_other_names :
  insight "Ozone (O3)" = None
  /\ insight "Carbon Dioxide (CO2)" = insight "Carbon".
Proof.
  split.
  - destruct (insight_branches_are_exclusive "Ozone (O3)")
      as (_ & Hnone & _).
    apply Hnone. reflexivity.
  - destruct (insight_branches_are_exclusive "Carbon Dioxide (CO2)")
      as (_ & _ & Hcat).
    apply (Hcat "Carbon"). simpl. tauto.
Defined.
